(** * Trim controller of the Joystick Gremlin trim plugin (src/trim.py)

    A shallow embedding of [TrimInstance] and of the event handlers that
    drive it, followed by the properties of the trim state machine and of
    the two blending algorithms.

    Numbers: Python floats are modelled by exact rationals ([Q]); the
    comparisons, [min], [max] and [abs] follow Python's definitions, and
    rounding is not modelled.  Two rationals that denote the same number
    are related by [==]; where the code returns a literal ([1.0], [-1.0],
    [0.0]) the statements use [=].  The module [Float64] gives the blend
    and the trim arithmetic once more in binary64, for the inputs on which
    rounding decides. *)

From Stdlib Require Import QArith Qabs Lqa ZArith List Bool.
From Stdlib Require Import PrimFloat.
From stdpp Require Import gmap.
Import ListNotations.

Set Warnings "-inexact-float".
Local Open Scope Q_scope.

(** ** Python primitives used by the plugin *)

Module Py.

(** [x >= y], [x <= y], [x > y] and [x < y] on floats. *)
Definition ge (x y : Q) : bool := Qle_bool y x.
Definition le (x y : Q) : bool := Qle_bool x y.
Definition gt (x y : Q) : bool := negb (Qle_bool x y).
Definition lt (x y : Q) : bool := negb (Qle_bool y x).

(** [min(a, b)] keeps [a] unless [b < a]; [max(a, b)] keeps [a] unless
    [b > a]. *)
Definition min (a b : Q) : Q := if lt b a then b else a.
Definition max (a b : Q) : Q := if gt b a then b else a.

Definition abs (x : Q) : Q := Qabs x.

(** Truth value of an identifier that may be [None]: [None] and [0] are
    false. *)
Definition truthy (o : option Z) : bool :=
  match o with
  | Some z => negb (z =? 0)%Z
  | None => false
  end.

End Py.

(** ** Configuration (the plugin's GUI variables) *)

(** [output_vjoy.value]: the device and axis identifiers of the output
    axis, either of which may be missing. *)
Record VJoyTarget : Type := mkTarget {
  device_id : option Z;
  input_id : option Z
}.

Record Config : Type := mkConfig {
  trim_increment : Q;        (* FloatVariable, default 0.01, range 0.001 .. 0.1 *)
  trim_sensitivity : Q;      (* FloatVariable, default 1.0, range 0.1 .. 3.0 *)
  enable_scaled_trim : bool;
  auto_center_on_init : bool;
  output_vjoy : option VJoyTarget
}.

(** The ranges the GUI enforces on the two float variables. *)
Definition legal_config (cfg : Config) : Prop :=
  0.001 <= trim_increment cfg <= 0.1 /\ 0.1 <= trim_sensitivity cfg <= 3.

(** ** Instance state *)

(** The host's vJoy proxy: the value of every axis it has, by device and
    axis identifier.  Addressing an axis it does not have raises. *)
Abbreviation VJoyProxy := (gmap (Z * Z) Q).

Record TrimInstance : Type := mkInstance {
  current_trim_value : Q;
  current_trim_offset : Q;
  physical_value : Q;
  vjoy_proxy : option VJoyProxy
}.

(** [TrimInstance.__init__] *)
Definition new_instance : TrimInstance :=
  {| current_trim_value := 0;
     current_trim_offset := 0;
     physical_value := 0;
     vjoy_proxy := None |}.

Definition set_vjoy_proxy (vjoy : option VJoyProxy) (self : TrimInstance) : TrimInstance :=
  {| current_trim_value := current_trim_value self;
     current_trim_offset := current_trim_offset self;
     physical_value := physical_value self;
     vjoy_proxy := vjoy |}.

Definition set_physical_value (v : Q) (self : TrimInstance) : TrimInstance :=
  {| current_trim_value := current_trim_value self;
     current_trim_offset := current_trim_offset self;
     physical_value := v;
     vjoy_proxy := vjoy_proxy self |}.

Definition set_trim (value offset : Q) (self : TrimInstance) : TrimInstance :=
  {| current_trim_value := value;
     current_trim_offset := offset;
     physical_value := physical_value self;
     vjoy_proxy := vjoy_proxy self |}.

(** The value the bound proxy holds for an axis, if any. *)
Definition axis_value (self : TrimInstance) (axis : Z * Z) : option Q :=
  match vjoy_proxy self with
  | Some proxy => proxy !! axis
  | None => None
  end.

(** ** Blending *)

(** [TrimInstance.calculate_trimmed_output] *)
Definition calculate_trimmed_output (cfg : Config) (physical trim_offset : Q) : Q :=
  if enable_scaled_trim cfg then
    if Py.ge physical 0 then
      if Py.ge trim_offset 0 then
        let remaining_range := 1 - trim_offset in
        if Py.gt remaining_range 0.01 then
          trim_offset + (physical * remaining_range)
        else
          1
      else
        trim_offset + (physical * (1 - trim_offset))
    else
      if Py.le trim_offset 0 then
        let remaining_range := -1 - trim_offset in
        if Py.gt (Py.abs remaining_range) 0.01 then
          trim_offset + (physical * Py.abs remaining_range)
        else
          -1
      else
        trim_offset + (physical * (1 + trim_offset))
  else
    physical + trim_offset.

(** The two lines of [update_output] that compute the value it writes:
    the blended value, clamped. *)
Definition compute_output (cfg : Config) (physical trim_offset : Q) : Q :=
  let output := calculate_trimmed_output cfg physical trim_offset in
  Py.max (-1) (Py.min 1 output).

(** The assignment [self.vjoy_proxy[device_id].axis(input_id).value = output]
    inside the [try]: an axis the proxy does not have raises, the [except]
    clause logs the error and the proxy is left as it was. *)
Definition write_axis (proxy : VJoyProxy) (d i : Z) (output : Q) : VJoyProxy :=
  match proxy !! (d, i) with
  | Some _ => <[(d, i) := output]> proxy
  | None => proxy
  end.

(** [TrimInstance.update_output] *)
Definition update_output (cfg : Config) (self : TrimInstance) : TrimInstance :=
  match output_vjoy cfg, vjoy_proxy self with
  | Some target, Some proxy =>
      let output :=
        compute_output cfg (physical_value self) (current_trim_offset self) in
      if Py.truthy (device_id target) && Py.truthy (input_id target) then
        match device_id target, input_id target with
        | Some d, Some i => set_vjoy_proxy (Some (write_axis proxy d i output)) self
        | _, _ => self
        end
      else self
  | _, _ => self
  end.

(** ** The blend and the trim arithmetic in binary64 *)

Module Float64.

(** Python's comparisons, [min] and [max] on floats. *)
Definition ge (x y : float) : bool := PrimFloat.leb y x.
Definition le (x y : float) : bool := PrimFloat.leb x y.
Definition gt (x y : float) : bool := PrimFloat.ltb y x.
Definition lt (x y : float) : bool := PrimFloat.ltb x y.

Definition min (a b : float) : float := if lt b a then b else a.
Definition max (a b : float) : float := if gt b a then b else a.

(** [TrimInstance.calculate_trimmed_output], on doubles. *)
Definition calculate_trimmed_output (enable_scaled_trim : bool)
    (physical trim_offset : float) : float :=
  (if enable_scaled_trim then
     if ge physical 0 then
       if ge trim_offset 0 then
         let remaining_range := 1 - trim_offset in
         if gt remaining_range 0.01 then
           trim_offset + (physical * remaining_range)
         else
           1
       else
         trim_offset + (physical * (1 - trim_offset))
     else
       if le trim_offset 0 then
         let remaining_range := -1 - trim_offset in
         if gt (PrimFloat.abs remaining_range) 0.01 then
           trim_offset + (physical * PrimFloat.abs remaining_range)
         else
           -1
       else
         trim_offset + (physical * (1 + trim_offset))
   else
     physical + trim_offset)%float.

(** The two lines of [update_output] that compute the value it writes. *)
Definition compute_output (enable_scaled_trim : bool)
    (physical trim_offset : float) : float :=
  let output := calculate_trimmed_output enable_scaled_trim physical trim_offset in
  max (-1)%float (min 1%float output).

(** The arithmetic of [TrimInstance.adjust_trim]: the new trim value and
    the new trim offset, from the old trim value. *)
Definition adjust_trim (trim_sensitivity delta : float)
    (current_trim_value : float) : float * float :=
  let value := (current_trim_value + delta)%float in
  let value := max (-1)%float (min 1%float value) in
  (value, (value * trim_sensitivity)%float).

(** The trim value and the trim offset after [n] presses of a button
    that adjusts by [delta], from a fresh instance. *)
Definition presses (trim_sensitivity delta : float) (n : nat) : float * float :=
  Nat.iter n (fun trim => adjust_trim trim_sensitivity delta (fst trim))
    (0%float, 0%float).

End Float64.

(** ** Trim commands *)

(** [TrimInstance.adjust_trim] *)
Definition adjust_trim (cfg : Config) (delta : Q) (self : TrimInstance) : TrimInstance :=
  let value := current_trim_value self + delta in
  let value := Py.max (-1) (Py.min 1 value) in
  let offset := value * trim_sensitivity cfg in
  update_output cfg (set_trim value offset self).

(** [TrimInstance.reset_trim] *)
Definition reset_trim (cfg : Config) (self : TrimInstance) : TrimInstance :=
  update_output cfg (set_trim 0 0 self).

(** ** Event handlers *)

Definition on_physical_axis (cfg : Config) (value : Q) (vjoy : VJoyProxy)
    (instance : TrimInstance) : TrimInstance :=
  update_output cfg (set_physical_value value (set_vjoy_proxy (Some vjoy) instance)).

Definition on_trim_up (cfg : Config) (is_pressed : bool) (vjoy : VJoyProxy)
    (instance : TrimInstance) : TrimInstance :=
  if is_pressed then
    adjust_trim cfg (trim_increment cfg) (set_vjoy_proxy (Some vjoy) instance)
  else instance.

Definition on_trim_down (cfg : Config) (is_pressed : bool) (vjoy : VJoyProxy)
    (instance : TrimInstance) : TrimInstance :=
  if is_pressed then
    adjust_trim cfg (- trim_increment cfg) (set_vjoy_proxy (Some vjoy) instance)
  else instance.

Definition on_reset (cfg : Config) (is_pressed : bool) (vjoy : VJoyProxy)
    (instance : TrimInstance) : TrimInstance :=
  if is_pressed then reset_trim cfg (set_vjoy_proxy (Some vjoy) instance)
  else instance.

(** [plugin_init] *)
Definition plugin_init (cfg : Config) (instance : TrimInstance) : TrimInstance :=
  let instance := set_physical_value 0 instance in
  if auto_center_on_init cfg then set_trim 0 0 instance else instance.

(** ** Runs of the plugin *)

(** What the host delivers to one plugin instance. *)
Inductive Event : Type :=
  | PhysicalAxis (value : Q) (vjoy : VJoyProxy)
  | TrimUp (is_pressed : bool) (vjoy : VJoyProxy)
  | TrimDown (is_pressed : bool) (vjoy : VJoyProxy)
  | Reset (is_pressed : bool) (vjoy : VJoyProxy)
  | PluginInit.

Definition handle (cfg : Config) (instance : TrimInstance) (ev : Event) : TrimInstance :=
  match ev with
  | PhysicalAxis value vjoy => on_physical_axis cfg value vjoy instance
  | TrimUp is_pressed vjoy => on_trim_up cfg is_pressed vjoy instance
  | TrimDown is_pressed vjoy => on_trim_down cfg is_pressed vjoy instance
  | Reset is_pressed vjoy => on_reset cfg is_pressed vjoy instance
  | PluginInit => plugin_init cfg instance
  end.

(** The instance after the events of [evs], in order, from a fresh one. *)
Definition run (cfg : Config) (evs : list Event) : TrimInstance :=
  fold_left (handle cfg) evs new_instance.

(** Every axis sample of the run lies in [-1, 1]. *)
Definition sample_in_range (ev : Event) : bool :=
  match ev with
  | PhysicalAxis value _ => Py.le (-1) value && Py.le value 1
  | _ => true
  end.

(** ** The clamp of the specification *)

(** [clamp x lo hi], as the specification uses it. *)
Definition clamp (x lo hi : Q) : Q :=
  if Qle_bool x lo then lo else if Qle_bool hi x then hi else x.

(** ** Invariants of the instance *)

(** The trim offset is the trim value times the sensitivity. *)
Definition trim_derived (cfg : Config) (instance : TrimInstance) : Prop :=
  current_trim_offset instance == current_trim_value instance * trim_sensitivity cfg.

Definition trim_in_range (instance : TrimInstance) : Prop :=
  -1 <= current_trim_value instance <= 1.

(** The two outcomes of a comparison [x <= y]. *)
Inductive Qle_bool_cases (x y : Q) : bool -> Prop :=
  | Qle_bool_holds : x <= y -> Qle_bool_cases x y true
  | Qle_bool_fails : y < x -> Qle_bool_cases x y false.

(** ** Sample configurations *)

(** Axis 1 of vJoy device 1, and a proxy that has this axis, centred. *)
Definition axis_1_1 : VJoyTarget := mkTarget (Some 1%Z) (Some 1%Z).
Definition one_axis : VJoyProxy := {[ (1%Z, 1%Z) := 0 ]}.

(** Additive and scaled blending with the default increment and
    sensitivity, and scaled blending with the largest increment and
    sensitivity the GUI allows. *)
Definition additive_cfg : Config := mkConfig 0.01 1 false true (Some axis_1_1).
Definition scaled_cfg : Config := mkConfig 0.01 1 true true (Some axis_1_1).
Definition sensitive_cfg : Config := mkConfig 0.1 3 true true (Some axis_1_1).

(** A configuration whose output device identifier is 0, and a proxy with
    a second axis. *)
Definition zero_device_cfg : Config :=
  mkConfig 0.01 1 false true (Some (mkTarget (Some 0%Z) (Some 1%Z))).
Definition two_axes : VJoyProxy := <[ (1%Z, 2%Z) := 0.25 ]> one_axis.

(** ** Events by their effect *)

(** A button event for a button that is not pressed. *)
Definition is_release (ev : Event) : bool :=
  match ev with
  | TrimUp is_pressed _ | TrimDown is_pressed _ | Reset is_pressed _ =>
      negb is_pressed
  | PhysicalAxis _ _ | PluginInit => false
  end.

(** An event that can change the trim: a pressed button or the start of
    the plugin. *)
Definition changes_trim (ev : Event) : bool :=
  match ev with
  | TrimUp is_pressed _ | TrimDown is_pressed _ | Reset is_pressed _ =>
      is_pressed
  | PluginInit => true
  | PhysicalAxis _ _ => false
  end.

(** The proxy that comes with an event its handler acts on. *)
Definition delivered_proxy (ev : Event) : option VJoyProxy :=
  match ev with
  | PhysicalAxis _ vjoy => Some vjoy
  | TrimUp true vjoy | TrimDown true vjoy | Reset true vjoy => Some vjoy
  | _ => None
  end.

(** The event with an empty proxy in place of the one it carries. *)
Definition strip_proxy (ev : Event) : Event :=
  match ev with
  | PhysicalAxis value _ => PhysicalAxis value ∅
  | TrimUp is_pressed _ => TrimUp is_pressed ∅
  | TrimDown is_pressed _ => TrimDown is_pressed ∅
  | Reset is_pressed _ => Reset is_pressed ∅
  | PluginInit => PluginInit
  end.

(** The pressed buttons and plugin starts of a run, in order, without the
    proxies they carry. *)
Definition pressed_commands (evs : list Event) : list Event :=
  map strip_proxy (List.filter changes_trim evs).

(** An identifier that [update_output] takes as absent. *)
Definition id_missing (o : option Z) : Prop := o = None \/ o = Some 0%Z.

(** * Properties *)

(** ** Comparisons, [min], [max] and the clamp *)

Lemma Qle_boolP (x y : Q) : Qle_bool_cases x y (Qle_bool x y).
Proof.
  destruct (Qle_bool x y) eqn:E; constructor.
  - now apply Qle_bool_iff.
  - apply Qnot_le_lt. intros H. apply Qle_bool_iff in H. congruence.
Qed.

Lemma Qabs_cases (x : Q) :
  (0 <= x /\ Qabs x == x) \/ (x <= 0 /\ Qabs x == - x).
Proof.
  destruct (Qlt_le_dec x 0) as [H | H].
  - right. split; [lra | apply Qabs_neg; lra].
  - left. split; [assumption | now apply Qabs_pos].
Qed.

(** Case analysis on every comparison of the goal. *)
Ltac py_unfold :=
  unfold Py.min, Py.max, Py.ge, Py.le, Py.gt, Py.lt, Py.abs in *.

Ltac py_cases :=
  py_unfold;
  repeat match goal with
         | |- context [Qle_bool ?a ?b] => destruct (Qle_boolP a b); cbn [negb]
         end.

(** The code's [max(-1.0, min(1.0, x))] is the specification's clamp. *)
Lemma py_clamp_is_clamp (x : Q) : Py.max (-1) (Py.min 1 x) = clamp x (-1) 1.
Proof.
  unfold clamp. py_unfold.
  destruct (Qle_boolP 1 x) as [H1 | H1]; simpl.
  - destruct (Qle_boolP x (-1)); [lra | reflexivity].
  - destruct (Qle_bool x (-1)); reflexivity.
Qed.

Lemma clamp_in_range (x : Q) : -1 <= clamp x (-1) 1 <= 1.
Proof. unfold clamp. py_cases; lra. Qed.

Lemma clamp_low (x : Q) : x <= -1 -> clamp x (-1) 1 = -1.
Proof. intros H. unfold clamp. py_cases; [reflexivity | lra | lra]. Qed.

Lemma clamp_high (x : Q) : 1 <= x -> clamp x (-1) 1 = 1.
Proof. intros H. unfold clamp. py_cases; [lra | reflexivity | lra]. Qed.

Lemma clamp_inside (x : Q) : -1 < x < 1 -> clamp x (-1) 1 = x.
Proof. intros H. unfold clamp. py_cases; [lra | lra | reflexivity]. Qed.

Lemma compute_output_clamp (cfg : Config) (p t : Q) :
  compute_output cfg p t = clamp (calculate_trimmed_output cfg p t) (-1) 1.
Proof. unfold compute_output. apply py_clamp_is_clamp. Qed.

(** ** What [update_output] changes *)

(** One goal per path through [update_output]; on each the trim fields and
    the physical value are those of the argument. *)
Ltac update_output_paths :=
  match goal with
  | |- context [update_output ?cfg ?self] =>
      unfold update_output;
      destruct (output_vjoy cfg) as [target |], (vjoy_proxy self);
      try reflexivity;
      destruct (Py.truthy (device_id target) && Py.truthy (input_id target));
      try reflexivity;
      destruct (device_id target), (input_id target); reflexivity
  end.

Lemma update_output_trim_value cfg self :
  current_trim_value (update_output cfg self) = current_trim_value self.
Proof. update_output_paths. Qed.

Lemma update_output_trim_offset cfg self :
  current_trim_offset (update_output cfg self) = current_trim_offset self.
Proof. update_output_paths. Qed.

Lemma update_output_physical_value cfg self :
  physical_value (update_output cfg self) = physical_value self.
Proof. update_output_paths. Qed.

(** With an output axis configured that the bound proxy has,
    [update_output] leaves the computed output on that axis. *)
Lemma update_output_writes cfg self proxy (d i : Z) (old : Q) :
  output_vjoy cfg = Some (mkTarget (Some d) (Some i)) ->
  d <> 0%Z -> i <> 0%Z ->
  vjoy_proxy self = Some proxy ->
  proxy !! (d, i) = Some old ->
  axis_value (update_output cfg self) (d, i)
  = Some (compute_output cfg (physical_value self) (current_trim_offset self)).
Proof.
  intros Ht Hd Hi Hp Hold.
  unfold update_output, axis_value. rewrite Ht, Hp. simpl.
  apply Z.eqb_neq in Hd, Hi. rewrite Hd, Hi. simpl.
  unfold write_axis. rewrite Hold. apply lookup_insert_eq.
Qed.

(** ** The computed output *)

(** C2: the output that [update_output] computes from the blended value
    lies within [-1, 1] for every physical value and trim offset, in either
    mode, whichever branch of the blend was taken; and an axis of the proxy
    that [update_output] changes holds such a value afterwards. *)
Theorem compute_output_in_range (cfg : Config) :
  (forall p t : Q, -1 <= compute_output cfg p t <= 1)
  /\ (forall (self : TrimInstance) (axis : Z * Z),
        axis_value (update_output cfg self) axis = axis_value self axis
        \/ exists q : Q,
             axis_value (update_output cfg self) axis = Some q /\ -1 <= q <= 1).
Proof.
  assert (Hrange : forall p t : Q, -1 <= compute_output cfg p t <= 1).
  { intros p t. rewrite compute_output_clamp. apply clamp_in_range. }
  split; [exact Hrange |].
  intros self axis. unfold update_output, axis_value.
  destruct (output_vjoy cfg) as [target |]; [| now left].
  destruct (vjoy_proxy self) as [proxy |] eqn:Hp; [| left; now rewrite Hp].
  destruct (Py.truthy (device_id target) && Py.truthy (input_id target));
    [| left; now rewrite Hp].
  destruct (device_id target) as [d |]; [| left; now rewrite Hp].
  destruct (input_id target) as [i |]; [| left; now rewrite Hp].
  simpl. unfold write_axis.
  destruct (proxy !! (d, i)) eqn:Hold; [| now left].
  destruct (decide ((d, i) = axis)) as [-> | Hne].
  - right. eexists. split; [apply lookup_insert_eq | apply Hrange].
  - left. now apply lookup_insert_ne.
Qed.

(** C3: in scaled mode [calculate_trimmed_output] is the four-branch
    blend of the specification, with the two saturated results where the
    headroom is at most 0.01; it is a total function, so no input raises. *)
Theorem scaled_output_branches (cfg : Config) (v t : Q) :
  enable_scaled_trim cfg = true ->
  let output := calculate_trimmed_output cfg v t in
  (0 <= v -> 0 <= t ->
     (0.01 < 1 - t -> output = t + v * (1 - t))
     /\ (1 - t <= 0.01 -> output = 1))
  /\ (0 <= v -> t < 0 -> output = t + v * (1 - t))
  /\ (v < 0 -> t <= 0 ->
        (0.01 < Qabs (-1 - t) -> output = t + v * Qabs (-1 - t))
        /\ (Qabs (-1 - t) <= 0.01 -> output = -1))
  /\ (v < 0 -> 0 < t -> output = t + v * (1 + t)).
Proof.
  intros Hscaled output. subst output.
  unfold calculate_trimmed_output. rewrite Hscaled.
  repeat split; intros; py_cases; try reflexivity; lra.
Qed.

(** C4: in additive mode the output left on the output axis after a state
    change is [clamp (v + t) (-1) 1]; a sum outside the range saturates and
    nothing is signalled. *)
Theorem additive_output_is_clamped_sum (cfg : Config) (self : TrimInstance)
    (proxy : VJoyProxy) (d i : Z) (old : Q) :
  enable_scaled_trim cfg = false ->
  output_vjoy cfg = Some (mkTarget (Some d) (Some i)) ->
  d <> 0%Z -> i <> 0%Z ->
  vjoy_proxy self = Some proxy ->
  proxy !! (d, i) = Some old ->
  -1 <= physical_value self <= 1 ->
  -1 <= current_trim_offset self <= 1 ->
  compute_output cfg (physical_value self) (current_trim_offset self)
  = clamp (physical_value self + current_trim_offset self) (-1) 1
  /\ axis_value (update_output cfg self) (d, i)
     = Some (clamp (physical_value self + current_trim_offset self) (-1) 1).
Proof.
  intros Hadd Ht Hd Hi Hp Hold _ _.
  assert (Hout : compute_output cfg (physical_value self) (current_trim_offset self)
                 = clamp (physical_value self + current_trim_offset self) (-1) 1).
  { rewrite compute_output_clamp. unfold calculate_trimmed_output.
    now rewrite Hadd. }
  split; [exact Hout |].
  rewrite <- Hout. now apply update_output_writes with proxy old.
Qed.

(** ** The trim state machine *)

(** [update_output] touches the proxy only. *)
Ltac frame_output :=
  rewrite ?update_output_trim_value, ?update_output_trim_offset,
    ?update_output_physical_value; cbn [current_trim_value current_trim_offset
    physical_value set_trim set_physical_value set_vjoy_proxy].

Lemma adjust_trim_value cfg delta self :
  current_trim_value (adjust_trim cfg delta self)
  = clamp (current_trim_value self + delta) (-1) 1.
Proof. unfold adjust_trim. frame_output. apply py_clamp_is_clamp. Qed.

Lemma adjust_trim_offset cfg delta self :
  current_trim_offset (adjust_trim cfg delta self)
  = current_trim_value (adjust_trim cfg delta self) * trim_sensitivity cfg.
Proof. unfold adjust_trim. now frame_output. Qed.

Lemma adjust_trim_physical cfg delta self :
  physical_value (adjust_trim cfg delta self) = physical_value self.
Proof. unfold adjust_trim. now frame_output. Qed.

Lemma reset_trim_fields cfg self :
  current_trim_value (reset_trim cfg self) = 0
  /\ current_trim_offset (reset_trim cfg self) = 0
  /\ physical_value (reset_trim cfg self) = physical_value self.
Proof. unfold reset_trim. now frame_output. Qed.

(** A property of the instance that every handler keeps, for the events
    that satisfy [G], holds after a run of such events. *)
Lemma fold_handle_invariant cfg (P : TrimInstance -> Prop) (G : Event -> Prop) :
  (forall instance ev, G ev -> P instance -> P (handle cfg instance ev)) ->
  forall evs instance,
    Forall G evs -> P instance -> P (fold_left (handle cfg) evs instance).
Proof.
  intros Hstep evs. induction evs as [| ev evs IH]; intros instance HG HP.
  - exact HP.
  - inversion HG; subst. cbn [fold_left]. apply IH; [assumption |].
    now apply Hstep.
Qed.

Lemma run_invariant cfg (P : TrimInstance -> Prop) :
  P new_instance ->
  (forall instance ev, P instance -> P (handle cfg instance ev)) ->
  forall evs, P (run cfg evs).
Proof.
  intros H0 Hstep evs. unfold run.
  apply fold_handle_invariant with (G := fun _ => True); auto.
  apply Forall_forall; auto.
Qed.

Lemma handle_trim_derived cfg instance ev :
  trim_derived cfg instance -> trim_derived cfg (handle cfg instance ev).
Proof.
  unfold trim_derived. intros H.
  destruct ev as [v vjoy | [] vjoy | [] vjoy | [] vjoy |]; cbn [handle];
    unfold on_physical_axis, on_trim_up, on_trim_down, on_reset, plugin_init,
      reset_trim; try exact H.
  - now frame_output.
  - rewrite adjust_trim_offset. reflexivity.
  - rewrite adjust_trim_offset. reflexivity.
  - frame_output. lra.
  - destruct (auto_center_on_init cfg); cbn; [lra | exact H].
Qed.

Lemma handle_trim_in_range cfg instance ev :
  trim_in_range instance -> trim_in_range (handle cfg instance ev).
Proof.
  unfold trim_in_range. intros H.
  destruct ev as [v vjoy | [] vjoy | [] vjoy | [] vjoy |]; cbn [handle];
    unfold on_physical_axis, on_trim_up, on_trim_down, on_reset, plugin_init,
      reset_trim; try exact H.
  - now frame_output.
  - rewrite adjust_trim_value. apply clamp_in_range.
  - rewrite adjust_trim_value. apply clamp_in_range.
  - frame_output. lra.
  - destruct (auto_center_on_init cfg); cbn; [lra | exact H].
Qed.

(** C1 (as the code has it): [on_physical_axis] stores the delivered sample
    in [physical_value] as it is, without clamping; after a run whose
    samples all lie in [-1, 1], [physical_value] lies in [-1, 1]. *)
Theorem physical_value_is_the_sample (cfg : Config) (evs : list Event)
    (v : Q) (vjoy : VJoyProxy) :
  forallb sample_in_range evs = true ->
  -1 <= physical_value (run cfg evs) <= 1
  /\ physical_value (on_physical_axis cfg v vjoy (run cfg evs)) = v.
Proof.
  intros Hevs. split.
  - unfold run.
    apply fold_handle_invariant
      with (P := fun instance => -1 <= physical_value instance <= 1)
           (G := fun ev => sample_in_range ev = true).
    + intros instance ev Hev H.
      destruct ev as [s vj | [] vj | [] vj | [] vj |]; cbn [handle];
        unfold on_physical_axis, on_trim_up, on_trim_down, on_reset,
          plugin_init; try exact H.
      * frame_output. cbn [sample_in_range] in Hev.
        apply andb_true_iff in Hev as [Hlo Hhi].
        unfold Py.le in Hlo, Hhi. apply Qle_bool_iff in Hlo, Hhi. lra.
      * now rewrite adjust_trim_physical.
      * now rewrite adjust_trim_physical.
      * unfold reset_trim. now frame_output.
      * destruct (auto_center_on_init cfg); cbn; lra.
    + apply List.Forall_forall. intros ev Hin.
      rewrite forallb_forall in Hevs. now apply Hevs.
    + cbn. lra.
  - unfold on_physical_axis. now frame_output.
Qed.

(** C5 (as the code has it): in every reachable state the trim value lies
    in [-1, 1] and the trim offset between minus the sensitivity and the
    sensitivity, hence in [-3, 3] for a legal sensitivity; it lies in
    [-1, 1] when the sensitivity is at most 1. *)
Theorem trim_offset_bounded_by_sensitivity (cfg : Config) (evs : list Event) :
  0.1 <= trim_sensitivity cfg <= 3 ->
  -1 <= current_trim_value (run cfg evs) <= 1
  /\ - trim_sensitivity cfg <= current_trim_offset (run cfg evs) <= trim_sensitivity cfg
  /\ -3 <= current_trim_offset (run cfg evs) <= 3
  /\ (trim_sensitivity cfg <= 1 -> -1 <= current_trim_offset (run cfg evs) <= 1).
Proof.
  intros Hs.
  assert (Hr : trim_in_range (run cfg evs)).
  { apply run_invariant; [cbn; unfold trim_in_range; cbn; lra |].
    intros. now apply handle_trim_in_range. }
  assert (Hd : trim_derived cfg (run cfg evs)).
  { apply run_invariant; [unfold trim_derived; cbn; lra |].
    intros. now apply handle_trim_derived. }
  unfold trim_in_range, trim_derived in *.
  set (value := current_trim_value (run cfg evs)) in *.
  set (offset := current_trim_offset (run cfg evs)) in *.
  set (s := trim_sensitivity cfg) in *.
  assert (Hlo : 0 <= (value + 1) * s) by (apply Qmult_le_0_compat; lra).
  assert (Hhi : 0 <= (1 - value) * s) by (apply Qmult_le_0_compat; lra).
  split; [lra |]. split; [lra |]. split; [lra |]. intros Hle. lra.
Qed.

(** C6: [adjust_trim] sets the trim value to the clamp of the old value
    plus [delta] and the trim offset to the new value times the
    sensitivity; from a trim value of 0.9, one or more adjustments by 0.5
    leave the trim value exactly 1. *)
Theorem adjust_trim_saturates (cfg : Config) (delta : Q) (self : TrimInstance) :
  current_trim_value (adjust_trim cfg delta self)
  = clamp (current_trim_value self + delta) (-1) 1
  /\ current_trim_offset (adjust_trim cfg delta self)
     = current_trim_value (adjust_trim cfg delta self) * trim_sensitivity cfg
  /\ -1 <= current_trim_value (adjust_trim cfg delta self) <= 1
  /\ (current_trim_value self == 0.9 ->
      forall n : nat,
        current_trim_value (Nat.iter (S n) (adjust_trim cfg 0.5) self) = 1).
Proof.
  split; [apply adjust_trim_value |].
  split; [apply adjust_trim_offset |].
  split; [rewrite adjust_trim_value; apply clamp_in_range |].
  intros Hstart n. induction n as [| n IH].
  - cbn [Nat.iter nat_rect]. rewrite adjust_trim_value. apply clamp_high. lra.
  - change (Nat.iter (S (S n)) (adjust_trim cfg 0.5) self)
      with (adjust_trim cfg 0.5 (Nat.iter (S n) (adjust_trim cfg 0.5) self)).
    rewrite adjust_trim_value, IH. apply clamp_high. lra.
Qed.

(** C7: [reset_trim] sets the trim value and the trim offset to 0 from
    every state, also right after an adjustment that saturated; it is a
    total function and leaves the physical value alone. *)
Theorem reset_trim_zeroes (cfg : Config) (self : TrimInstance) :
  current_trim_value (reset_trim cfg self) = 0
  /\ current_trim_offset (reset_trim cfg self) = 0
  /\ physical_value (reset_trim cfg self) = physical_value self
  /\ (forall delta : Q,
        current_trim_value (reset_trim cfg (adjust_trim cfg delta self)) = 0
        /\ current_trim_offset (reset_trim cfg (adjust_trim cfg delta self)) = 0).
Proof.
  destruct (reset_trim_fields cfg self) as (Hv & Ho & Hp).
  repeat split; try assumption; apply reset_trim_fields.
Qed.

(** C8: after the constructor and after every handler the trim offset
    equals the trim value times the sensitivity: [adjust_trim] and
    [reset_trim] establish it from any state, [on_physical_axis] and
    [plugin_init] keep it, and so it holds after every run. *)
Theorem trim_offset_is_derived (cfg : Config) :
  trim_derived cfg new_instance
  /\ (forall delta self, trim_derived cfg (adjust_trim cfg delta self))
  /\ (forall self, trim_derived cfg (reset_trim cfg self))
  /\ (forall v vjoy self,
        trim_derived cfg self -> trim_derived cfg (on_physical_axis cfg v vjoy self))
  /\ (forall self, trim_derived cfg self -> trim_derived cfg (plugin_init cfg self))
  /\ (forall evs, trim_derived cfg (run cfg evs)).
Proof.
  assert (H0 : trim_derived cfg new_instance) by (unfold trim_derived; cbn; lra).
  split; [exact H0 |]. repeat apply conj.
  - intros delta self. unfold trim_derived. now rewrite adjust_trim_offset.
  - intros self. unfold trim_derived.
    destruct (reset_trim_fields cfg self) as (-> & -> & _). lra.
  - intros v vjoy self. apply (handle_trim_derived cfg self (PhysicalAxis v vjoy)).
  - intros self. apply (handle_trim_derived cfg self PluginInit).
  - intros evs. apply run_invariant; [exact H0 |].
    intros. now apply handle_trim_derived.
Qed.

(** ** The scaled blend *)

Section Scaled.

Variable cfg : Config.
Hypothesis Hscaled : enable_scaled_trim cfg = true.



(** Inside the band next to -1, and below it, the negative side
    saturates. *)
Lemma scaled_negative_band (v t : Q) :
  t < -0.99 -> v < 0 ->
  calculate_trimmed_output cfg v t <= -1
  /\ (-1.01 < t -> calculate_trimmed_output cfg v t = -1).
Proof.
  intros Ht Hv. unfold calculate_trimmed_output. rewrite Hscaled.
  py_unfold. destruct (Qabs_cases (-1 - t)) as [[Hs Ha] | [Hs Ha]];
    set (a := Qabs (-1 - t)) in *; py_cases; try lra;
    try (split; [lra | reflexivity]).
  all: assert (0 <= (- v) * a) by (apply Qmult_le_0_compat; lra).
  all: split; [lra | intros; lra].
Qed.

Lemma scaled_positive_band (v t : Q) :
  0.99 < t -> 0 <= v -> calculate_trimmed_output cfg v t = 1.
Proof.
  intros Ht Hv. unfold calculate_trimmed_output. rewrite Hscaled.
  py_cases; try reflexivity; lra.
Qed.

End Scaled.


(** C10 (as the code has it): in scaled mode a trim offset above 0.99 gives
    exactly 1 for every physical value that is not negative, the centred
    stick included; a trim offset below -0.99 gives exactly -1 for every
    negative physical value (from the blend itself above -1.01, from the
    clamp otherwise). *)
Theorem epsilon_band_saturates (cfg : Config) (v t : Q) :
  enable_scaled_trim cfg = true ->
  (0.99 < t -> 0 <= v ->
     calculate_trimmed_output cfg v t = 1 /\ compute_output cfg v t = 1)
  /\ (0.99 < t -> compute_output cfg 0 t = 1)
  /\ (t < -0.99 -> v < 0 ->
        compute_output cfg v t = -1
        /\ (-1.01 < t -> calculate_trimmed_output cfg v t = -1)).
Proof.
  intros Hscaled.
  assert (Hpos : forall p, 0.99 < t -> 0 <= p ->
                   calculate_trimmed_output cfg p t = 1 /\ compute_output cfg p t = 1).
  { intros p Ht Hp.
    pose proof (scaled_positive_band cfg Hscaled p t Ht Hp) as Hraw.
    split; [exact Hraw |].
    rewrite compute_output_clamp, Hraw. apply clamp_high. lra. }
  split; [apply Hpos |].
  split; [intros Ht; apply Hpos; [exact Ht | lra] |].
  intros Ht Hv.
  destruct (scaled_negative_band cfg Hscaled v t Ht Hv) as [Hle Hband].
  split; [| exact Hband].
  rewrite compute_output_clamp. now apply clamp_low.
Qed.

(** ** The properties on concrete runs *)

(** Decides a comparison between two constants. *)
Ltac qconst := vm_compute; first [reflexivity | discriminate].

(** A sample of 2 is stored as 2: [on_physical_axis] does not clamp what it
    stores, so [physical_value] leaves [-1, 1] with the sample. *)
Lemma out_of_range_sample_is_stored :
  physical_value (on_physical_axis additive_cfg 2 one_axis new_instance) = 2
  /\ ~ (-1 <= physical_value (on_physical_axis additive_cfg 2 one_axis new_instance) <= 1).
Proof.
  assert (E : physical_value (on_physical_axis additive_cfg 2 one_axis new_instance) = 2)
    by (vm_compute; reflexivity).
  split; [exact E |]. rewrite E. intros [_ H]. lra.
Qed.

Lemma physical_value_is_the_sample_witness :
  forallb sample_in_range [PhysicalAxis 0.5 one_axis; TrimUp true one_axis] = true
  /\ -1 <= physical_value
             (run additive_cfg [PhysicalAxis 0.5 one_axis; TrimUp true one_axis]) <= 1
  /\ physical_value
       (on_physical_axis additive_cfg 0.3 one_axis
          (run additive_cfg [PhysicalAxis 0.5 one_axis; TrimUp true one_axis]))
     = 0.3.
Proof.
  split; [reflexivity |].
  apply (physical_value_is_the_sample additive_cfg
           [PhysicalAxis 0.5 one_axis; TrimUp true one_axis] 0.3 one_axis).
  reflexivity.
Defined.

Lemma scaled_output_branches_witness :
  enable_scaled_trim scaled_cfg = true
  /\ calculate_trimmed_output scaled_cfg 0.5 0.5 = 0.5 + 0.5 * (1 - 0.5)
  /\ calculate_trimmed_output scaled_cfg 0.5 0.995 = 1.
Proof.
  split; [reflexivity |]. split.
  - apply (proj1 (scaled_output_branches scaled_cfg 0.5 0.5 eq_refl)); qconst.
  - apply (proj1 (scaled_output_branches scaled_cfg 0.5 0.995 eq_refl)); qconst.
Defined.

(** Scenario A of the specification: a physical value of 0.5 and a trim of
    0.2 at sensitivity 1. *)
Lemma additive_output_is_clamped_sum_witness :
  let self := mkInstance 0.2 0.2 0.5 (Some one_axis) in
  compute_output additive_cfg (physical_value self) (current_trim_offset self)
  = clamp (0.5 + 0.2) (-1) 1
  /\ axis_value (update_output additive_cfg self) (1%Z, 1%Z)
     = Some (clamp (0.5 + 0.2) (-1) 1).
Proof.
  intros self.
  apply (additive_output_is_clamped_sum additive_cfg self one_axis 1 1 0);
    try reflexivity; try discriminate; split; qconst.
Defined.

(** Five presses of the trim-up button at increment 0.1 and sensitivity 3,
    both legal, put the trim offset at 1.5. *)
Lemma sensitivity_three_offset_exceeds_one :
  legal_config sensitive_cfg
  /\ current_trim_offset (run sensitive_cfg (repeat (TrimUp true one_axis) 5)) == 1.5
  /\ ~ (-1 <= current_trim_offset (run sensitive_cfg (repeat (TrimUp true one_axis) 5)) <= 1).
Proof.
  assert (E : current_trim_offset (run sensitive_cfg (repeat (TrimUp true one_axis) 5))
              == 1.5) by (vm_compute; reflexivity).
  split; [repeat apply conj; qconst |].
  split; [exact E |]. rewrite E. intros [_ H]. lra.
Qed.

Lemma trim_offset_bounded_by_sensitivity_witness :
  0.1 <= trim_sensitivity sensitive_cfg <= 3
  /\ -3 <= current_trim_offset (run sensitive_cfg (repeat (TrimUp true one_axis) 5)) <= 3.
Proof.
  assert (Hs : 0.1 <= trim_sensitivity sensitive_cfg <= 3) by (split; qconst).
  split; [exact Hs |].
  apply (trim_offset_bounded_by_sensitivity sensitive_cfg
           (repeat (TrimUp true one_axis) 5) Hs).
Defined.

Lemma adjust_trim_saturates_witness :
  let self := mkInstance 0.9 0.9 0 None in
  current_trim_value self == 0.9
  /\ current_trim_value (Nat.iter 3 (adjust_trim additive_cfg 0.5) self) = 1.
Proof.
  intros self. split; [reflexivity |].
  apply (proj2 (proj2 (proj2 (adjust_trim_saturates additive_cfg 0.5 self)))).
  reflexivity.
Defined.

Lemma trim_offset_is_derived_witness :
  let self := mkInstance 0.2 0.2 0 None in
  trim_derived additive_cfg self
  /\ trim_derived additive_cfg (on_physical_axis additive_cfg 0.5 one_axis self)
  /\ trim_derived additive_cfg (plugin_init additive_cfg self).
Proof.
  intros self.
  assert (H : trim_derived additive_cfg self) by (unfold trim_derived; qconst).
  pose proof (trim_offset_is_derived additive_cfg) as (_ & _ & _ & Haxis & Hinit & _).
  split; [exact H |]. split; [apply Haxis, H | apply Hinit, H].
Defined.


(** Scenario C of the specification: at a trim offset of 0.995 the centred
    stick already gives full deflection. *)
Lemma epsilon_band_saturates_witness :
  compute_output scaled_cfg 0 0.995 = 1
  /\ compute_output scaled_cfg (-0.5) (-0.995) = -1.
Proof.
  split.
  - apply (proj1 (epsilon_band_saturates scaled_cfg 0 0.995 eq_refl)); qconst.
  - apply (proj2 (proj2 (epsilon_band_saturates scaled_cfg (-0.5) (-0.995) eq_refl)));
      qconst.
Defined.

(** ** The blend in binary64 *)


(** In binary64 [1.0 - 0.99] is 0.010000000000000009, above 0.01: at a trim
    offset of 0.99 the blend is taken, the centred stick gives 0.99 and not
    1, and at -0.99 a stick at -0.5 gives -0.995 and not -1.  Twelve
    presses of trim up at increment 0.1 and sensitivity 0.99 put the trim
    offset at 0.99. *)
Lemma binary64_band_excludes_0_99 :
  PrimFloat.leb 0.99 0.99 = true
  /\ (1 - 0.99)%float = 0x1.47ae147ae1480p-7%float
  /\ PrimFloat.ltb 0.01 (1 - 0.99) = true
  /\ Float64.compute_output true 0 0.99 = 0.99%float
  /\ PrimFloat.eqb (Float64.compute_output true 0 0.99) 1 = false
  /\ Float64.compute_output true (-0.5) (-0.99) = (-0.995)%float
  /\ PrimFloat.eqb (Float64.compute_output true (-0.5) (-0.99)) (-1) = false
  /\ snd (Float64.presses 0.99 0.1 12) = 0.99%float.
Proof. vm_compute. repeat split. Qed.

(** * Further properties of the handlers *)

(** ** [update_output] *)

(** Without an output axis, without a bound proxy, or with a device or
    axis identifier that is absent or 0, [update_output] changes nothing. *)
Theorem update_output_skips (cfg : Config) (self : TrimInstance) :
  output_vjoy cfg = None
  \/ vjoy_proxy self = None
  \/ (exists target, output_vjoy cfg = Some target
                     /\ (id_missing (device_id target) \/ id_missing (input_id target))) ->
  update_output cfg self = self.
Proof.
  unfold update_output, id_missing.
  intros [Hnone | [Hnone | (target & Ht & Hid)]].
  - now rewrite Hnone.
  - rewrite Hnone. now destruct (output_vjoy cfg).
  - rewrite Ht. destruct (vjoy_proxy self); [| reflexivity].
    destruct Hid as [[-> | ->] | [-> | ->]]; cbn;
      try reflexivity; rewrite ?andb_false_r; reflexivity.
Qed.

Lemma write_axis_twice (proxy : VJoyProxy) (d i : Z) (q : Q) :
  write_axis (write_axis proxy d i q) d i q = write_axis proxy d i q.
Proof.
  unfold write_axis. destruct (proxy !! (d, i)) eqn:E.
  - rewrite lookup_insert_eq. apply insert_insert_eq.
  - now rewrite E.
Qed.

(** Updating the output twice is updating it once. *)
Theorem update_output_idempotent (cfg : Config) (self : TrimInstance) :
  update_output cfg (update_output cfg self) = update_output cfg self.
Proof.
  unfold update_output.
  destruct (output_vjoy cfg) as [[device axis] |]; [| reflexivity].
  cbn [device_id input_id].
  destruct (vjoy_proxy self) as [proxy |] eqn:Hp; [| now rewrite Hp].
  destruct (Py.truthy device && Py.truthy axis); [| now rewrite Hp].
  destruct device as [d |]; [| now rewrite Hp].
  destruct axis as [i |]; [| now rewrite Hp].
  cbn [vjoy_proxy set_vjoy_proxy physical_value current_trim_offset].
  now rewrite write_axis_twice.
Qed.

Lemma update_output_frame (cfg : Config) (self : TrimInstance) (axis : Z * Z) :
  (forall d i, output_vjoy cfg = Some (mkTarget (Some d) (Some i)) -> (d, i) <> axis) ->
  axis_value (update_output cfg self) axis = axis_value self axis.
Proof.
  intros Hother. unfold update_output, axis_value.
  destruct (output_vjoy cfg) as [[device input] |]; [| reflexivity].
  cbn [device_id input_id].
  destruct (vjoy_proxy self) as [proxy |] eqn:Hp; [| now rewrite Hp].
  destruct (Py.truthy device && Py.truthy input); [| now rewrite Hp].
  destruct device as [d |]; [| now rewrite Hp].
  destruct input as [i |]; [| now rewrite Hp].
  cbn [vjoy_proxy set_vjoy_proxy]. unfold write_axis.
  destruct (proxy !! (d, i)); [| reflexivity].
  apply lookup_insert_ne. now apply Hother.
Qed.

(** ** The handlers and the proxy *)

(** A handler that acts on its event binds the proxy that came with it. *)
Lemma handle_binds_delivered cfg instance ev vjoy :
  delivered_proxy ev = Some vjoy ->
  exists self,
    handle cfg instance ev = update_output cfg self /\ vjoy_proxy self = Some vjoy.
Proof.
  intros Hev.
  destruct ev as [v vj | [] vj | [] vj | [] vj |]; cbn in Hev; try discriminate;
    injection Hev as ->; cbn [handle];
    unfold on_physical_axis, on_trim_up, on_trim_down, on_reset, adjust_trim,
      reset_trim; eexists; split; reflexivity.
Qed.

(** After an axis sample or a pressed button, the configured output axis,
    when the proxy that came with the event has it, holds the output
    computed from the physical value and the trim offset the instance has
    then, in either mode. *)
Theorem handlers_leave_output_in_sync (cfg : Config) (instance : TrimInstance)
    (ev : Event) (vjoy : VJoyProxy) (d i : Z) (old : Q) :
  output_vjoy cfg = Some (mkTarget (Some d) (Some i)) ->
  d <> 0%Z -> i <> 0%Z ->
  delivered_proxy ev = Some vjoy ->
  vjoy !! (d, i) = Some old ->
  axis_value (handle cfg instance ev) (d, i)
  = Some (compute_output cfg (physical_value (handle cfg instance ev))
            (current_trim_offset (handle cfg instance ev))).
Proof.
  intros Ht Hd Hi Hev Hold.
  destruct (handle_binds_delivered cfg instance ev vjoy Hev) as (self & -> & Hp).
  rewrite update_output_physical_value, update_output_trim_offset.
  now apply update_output_writes with vjoy old.
Qed.

(** A handler changes no axis but the configured one: on every other axis
    the instance sees what the proxy that came with the event holds, and,
    for a released button and for [plugin_init], what it saw before. *)
Theorem handlers_touch_one_axis (cfg : Config) (instance : TrimInstance)
    (ev : Event) (axis : Z * Z) :
  (forall d i, output_vjoy cfg = Some (mkTarget (Some d) (Some i)) -> (d, i) <> axis) ->
  axis_value (handle cfg instance ev) axis
  = match delivered_proxy ev with
    | Some vjoy => vjoy !! axis
    | None => axis_value instance axis
    end.
Proof.
  intros Hother.
  destruct (delivered_proxy ev) as [vjoy |] eqn:Hev.
  - destruct (handle_binds_delivered cfg instance ev vjoy Hev) as (self & -> & Hp).
    rewrite update_output_frame by exact Hother.
    unfold axis_value. now rewrite Hp.
  - destruct ev as [v vj | [] vj | [] vj | [] vj |]; cbn in Hev; try discriminate;
      cbn [handle]; unfold on_trim_up, on_trim_down, on_reset, plugin_init;
      try reflexivity.
    now destruct (auto_center_on_init cfg).
Qed.

(** ** Runs *)

(** Released buttons do nothing: a run and the run without its release
    events end in the same instance. *)
Theorem releases_are_ignored (cfg : Config) (evs : list Event) :
  run cfg evs = run cfg (List.filter (fun ev => negb (is_release ev)) evs).
Proof.
  unfold run. generalize new_instance.
  induction evs as [| ev evs IH]; intros instance; [reflexivity |].
  cbn [List.filter fold_left].
  destruct ev as [v vj | [] vj | [] vj | [] vj |]; cbn [is_release negb fold_left];
    apply IH.
Qed.

Lemma handle_trim_fields_agree cfg s1 s2 ev :
  current_trim_value s1 = current_trim_value s2 ->
  current_trim_offset s1 = current_trim_offset s2 ->
  current_trim_value (handle cfg s1 ev)
  = current_trim_value (handle cfg s2 (strip_proxy ev))
  /\ current_trim_offset (handle cfg s1 ev)
     = current_trim_offset (handle cfg s2 (strip_proxy ev)).
Proof.
  intros Hv Ho.
  destruct ev as [v vj | [] vj | [] vj | [] vj |]; cbn [handle strip_proxy];
    unfold on_physical_axis, on_trim_up, on_trim_down, on_reset, plugin_init,
      adjust_trim, reset_trim; frame_output; try rewrite Hv; try (split; congruence).
  destruct (auto_center_on_init cfg); cbn; split; congruence.
Qed.

Lemma handle_keeps_trim cfg instance ev :
  changes_trim ev = false ->
  current_trim_value (handle cfg instance ev) = current_trim_value instance
  /\ current_trim_offset (handle cfg instance ev) = current_trim_offset instance.
Proof.
  intros Hev.
  destruct ev as [v vj | [] vj | [] vj | [] vj |]; cbn in Hev; try discriminate;
    cbn [handle]; unfold on_physical_axis, on_trim_up, on_trim_down, on_reset;
    frame_output; split; reflexivity.
Qed.

(** The trim of a run is the trim of the run of its pressed commands. *)
Lemma run_trim_of_pressed_commands cfg evs :
  current_trim_value (run cfg evs)
  = current_trim_value (run cfg (pressed_commands evs))
  /\ current_trim_offset (run cfg evs)
     = current_trim_offset (run cfg (pressed_commands evs)).
Proof.
  unfold run, pressed_commands.
  assert (H : forall s1 s2,
             current_trim_value s1 = current_trim_value s2 ->
             current_trim_offset s1 = current_trim_offset s2 ->
             current_trim_value (fold_left (handle cfg) evs s1)
             = current_trim_value
                 (fold_left (handle cfg)
                    (map strip_proxy (List.filter changes_trim evs)) s2)
             /\ current_trim_offset (fold_left (handle cfg) evs s1)
                = current_trim_offset
                    (fold_left (handle cfg)
                       (map strip_proxy (List.filter changes_trim evs)) s2)).
  { induction evs as [| ev evs IH]; intros s1 s2 Hv Ho; [now split |].
    cbn [List.filter fold_left]. destruct (changes_trim ev) eqn:Hev.
    - cbn [map fold_left].
      destruct (handle_trim_fields_agree cfg s1 s2 ev Hv Ho) as [Hv' Ho'].
      now apply IH.
    - destruct (handle_keeps_trim cfg s1 ev Hev) as [Hv' Ho'].
      apply IH; congruence. }
  now apply H.
Qed.

(** The trim of a run is decided by its pressed buttons and plugin starts
    alone: two runs with the same pressed commands end with the same trim
    value and the same trim offset, whatever axis samples and released
    buttons they contain and whatever proxies their events carry. *)
Theorem trim_depends_on_presses (cfg : Config) (evs1 evs2 : list Event) :
  pressed_commands evs1 = pressed_commands evs2 ->
  current_trim_value (run cfg evs1) = current_trim_value (run cfg evs2)
  /\ current_trim_offset (run cfg evs1) = current_trim_offset (run cfg evs2).
Proof.
  intros Hsame.
  destruct (run_trim_of_pressed_commands cfg evs1) as [Hv1 Ho1].
  destruct (run_trim_of_pressed_commands cfg evs2) as [Hv2 Ho2].
  rewrite Hv1, Ho1, Hv2, Ho2, Hsame. now split.
Qed.

(** ** Trim arithmetic *)

Lemma clamp_cases (x : Q) :
  (x <= -1 /\ clamp x (-1) 1 = -1)
  \/ (1 <= x /\ clamp x (-1) 1 = 1)
  \/ (-1 < x < 1 /\ clamp x (-1) 1 = x).
Proof.
  destruct (Qlt_le_dec (-1) x) as [Hlo | Hlo].
  - destruct (Qlt_le_dec x 1) as [Hhi | Hhi].
    + right. right. split; [lra | apply clamp_inside; lra].
    + right. left. split; [lra | now apply clamp_high].
  - left. split; [lra | now apply clamp_low].
Qed.

Lemma on_trim_up_value cfg vjoy instance :
  current_trim_value (on_trim_up cfg true vjoy instance)
  = clamp (current_trim_value instance + trim_increment cfg) (-1) 1.
Proof. unfold on_trim_up. now rewrite adjust_trim_value. Qed.

Lemma on_trim_down_value cfg vjoy instance :
  current_trim_value (on_trim_down cfg true vjoy instance)
  = clamp (current_trim_value instance + - trim_increment cfg) (-1) 1.
Proof. unfold on_trim_down. now rewrite adjust_trim_value. Qed.

(** The buttons move the trim their own way and no further than the
    ends: a press of trim up never lowers the trim value and leaves it at
    most 1, exactly 1 once the sum reaches 1; a press of trim down never
    raises it and leaves it at least -1, exactly -1 once the sum reaches
    -1. *)
Theorem trim_buttons_direction (cfg : Config) (instance : TrimInstance)
    (vjoy : VJoyProxy) :
  0 <= trim_increment cfg ->
  -1 <= current_trim_value instance <= 1 ->
  current_trim_value instance
    <= current_trim_value (on_trim_up cfg true vjoy instance) <= 1
  /\ -1 <= current_trim_value (on_trim_down cfg true vjoy instance)
        <= current_trim_value instance
  /\ (1 <= current_trim_value instance + trim_increment cfg ->
        current_trim_value (on_trim_up cfg true vjoy instance) = 1)
  /\ (current_trim_value instance + - trim_increment cfg <= -1 ->
        current_trim_value (on_trim_down cfg true vjoy instance) = -1).
Proof.
  intros Hinc Hv.
  rewrite on_trim_down_value, on_trim_up_value.
  set (value := current_trim_value instance) in *.
  set (inc := trim_increment cfg) in *.
  split; [| split; [| split]].
  - destruct (clamp_cases (value + inc)) as [[H1 ->] | [[H1 ->] | [H1 ->]]]; lra.
  - destruct (clamp_cases (value + - inc)) as [[H1 ->] | [[H1 ->] | [H1 ->]]]; lra.
  - apply clamp_high.
  - apply clamp_low.
Qed.

(** ** The blend as a function of the stick and of the trim *)

Lemma clamp_monotone (x y : Q) : x <= y -> clamp x (-1) 1 <= clamp y (-1) 1.
Proof. intros H. unfold clamp. py_cases; lra. Qed.

(** Facts on products that the linear solver cannot find itself. *)
Ltac product_nonneg x y :=
  try assert (0 <= x * y) by (apply Qmult_le_0_compat; lra).

(** Moving the stick up never moves the output down, in either mode and
    for every trim offset. *)
Theorem compute_output_monotone (cfg : Config) (v1 v2 t : Q) :
  v1 <= v2 -> compute_output cfg v1 t <= compute_output cfg v2 t.
Proof.
  intros Hv. rewrite !compute_output_clamp. unfold calculate_trimmed_output.
  destruct (enable_scaled_trim cfg); [| apply clamp_monotone; lra].
  py_unfold. destruct (Qabs_cases (-1 - t)) as [[Hs Ha] | [Hs Ha]];
    set (a := Qabs (-1 - t)) in *;
    assert (Ha0 : 0 <= a) by lra;
    py_cases;
    product_nonneg (v2 - v1) (1 - t); product_nonneg (v2 - v1) (1 + t);
    product_nonneg (v2 - v1) a; product_nonneg (- v1) a;
    product_nonneg v2 (1 - t); product_nonneg (- v1) (1 + t);
    product_nonneg v2 (t - 1); product_nonneg (-v1) (t - 1);
    unfold clamp; py_cases; lra.
Qed.

(** In additive mode more trim never moves the output down, for every
    physical value. *)
Theorem additive_output_monotone_in_trim (cfg : Config) (v t1 t2 : Q) :
  enable_scaled_trim cfg = false ->
  t1 <= t2 ->
  compute_output cfg v t1 <= compute_output cfg v t2.
Proof.
  intros Hadd Ht. rewrite !compute_output_clamp. unfold calculate_trimmed_output.
  rewrite Hadd. apply clamp_monotone. lra.
Qed.

Lemma clamp_opp (x : Q) : clamp (- x) (-1) 1 == - clamp x (-1) 1.
Proof. unfold clamp. py_cases; lra. Qed.

(** Off centre the blend is odd: mirroring the stick and the trim mirrors
    the output, in either mode. *)
Theorem compute_output_odd (cfg : Config) (v t : Q) :
  ~ v == 0 ->
  compute_output cfg (- v) (- t) == - compute_output cfg v t.
Proof.
  intros Hv.
  assert (Hsign : v < 0 \/ 0 < v).
  { destruct (Q_dec v 0) as [[H | H] | H]; [now left | now right | contradiction]. }
  rewrite !compute_output_clamp. unfold calculate_trimmed_output.
  destruct (enable_scaled_trim cfg).
  - py_unfold.
    destruct (Qabs_cases (-1 - t)) as [[Hs1 Ha1] | [Hs1 Ha1]];
      destruct (Qabs_cases (-1 - - t)) as [[Hs2 Ha2] | [Hs2 Ha2]];
      set (a1 := Qabs (-1 - t)) in *; set (a2 := Qabs (-1 - - t)) in *;
      first [ assert (Hp1 : v * a1 == v * (-1 - t)) by (rewrite Ha1; ring)
            | assert (Hp1 : v * a1 == v * (1 + t)) by (rewrite Ha1; ring) ];
      first [ assert (Hp2 : - v * a2 == - v * (-1 + t)) by (rewrite Ha2; ring)
            | assert (Hp2 : - v * a2 == - v * (1 - t)) by (rewrite Ha2; ring) ];
      destruct Hsign as [Hsign | Hsign];
      py_cases;
      product_nonneg v (t - 1); product_nonneg (- v) (-1 - t);
      unfold clamp; py_cases; lra.
  - assert (E : - v + - t == - (v + t)) by ring.
    unfold clamp at 1. unfold clamp. py_cases; lra.
Qed.

(** With the trim at 0 the output is the stick, in either mode. *)
Theorem centred_trim_passes_stick (cfg : Config) (v : Q) :
  -1 <= v <= 1 -> compute_output cfg v 0 == v.
Proof.
  intros Hv. rewrite compute_output_clamp. unfold calculate_trimmed_output.
  destruct (enable_scaled_trim cfg).
  - py_unfold. change (Qabs (-1 - 0)) with 1.
    py_cases; unfold clamp; py_cases; lra.
  - unfold clamp; py_cases; lra.
Qed.

(** With the stick at 0 the output is the trim offset, in either mode, for
    a trim offset from -1 up to the band below 1. *)
Theorem centred_stick_gives_trim (cfg : Config) (t : Q) :
  -1 <= t -> t < 0.99 -> compute_output cfg 0 t == t.
Proof.
  intros Hlo Hhi. rewrite compute_output_clamp. unfold calculate_trimmed_output.
  destruct (enable_scaled_trim cfg).
  - py_cases; unfold clamp; py_cases; lra.
  - unfold clamp; py_cases; lra.
Qed.

(** ** Starting the plugin *)

(** [plugin_init] centres the stored physical value and, with
    auto-centring, the trim, so that the output computed from the instance
    is 0; without auto-centring it keeps the trim.  It writes nothing: the
    proxy is left as it was.  Starting twice is starting once. *)
Theorem plugin_init_centres (cfg : Config) (instance : TrimInstance) :
  physical_value (plugin_init cfg instance) = 0
  /\ vjoy_proxy (plugin_init cfg instance) = vjoy_proxy instance
  /\ plugin_init cfg (plugin_init cfg instance) = plugin_init cfg instance
  /\ (auto_center_on_init cfg = true ->
        current_trim_value (plugin_init cfg instance) = 0
        /\ current_trim_offset (plugin_init cfg instance) = 0
        /\ compute_output cfg (physical_value (plugin_init cfg instance))
             (current_trim_offset (plugin_init cfg instance)) == 0)
  /\ (auto_center_on_init cfg = false ->
        current_trim_value (plugin_init cfg instance) = current_trim_value instance
        /\ current_trim_offset (plugin_init cfg instance)
           = current_trim_offset instance).
Proof.
  unfold plugin_init.
  destruct (auto_center_on_init cfg); cbn; repeat apply conj;
    try reflexivity; try discriminate; intros _; repeat apply conj;
    try reflexivity.
  rewrite compute_output_clamp. unfold calculate_trimmed_output.
  destruct (enable_scaled_trim cfg); vm_compute; reflexivity.
Qed.

(** After a reset the output axis follows the stick, in either mode. *)
Theorem reset_then_stick (cfg : Config) (instance : TrimInstance)
    (vjoy vjoy' : VJoyProxy) (v : Q) (d i : Z) (old : Q) :
  output_vjoy cfg = Some (mkTarget (Some d) (Some i)) ->
  d <> 0%Z -> i <> 0%Z ->
  vjoy !! (d, i) = Some old ->
  -1 <= v <= 1 ->
  exists q : Q,
    axis_value (on_physical_axis cfg v vjoy (on_reset cfg true vjoy' instance)) (d, i)
    = Some q
    /\ q == v.
Proof.
  intros Ht Hd Hi Hold Hv.
  change (on_reset cfg true vjoy' instance)
    with (reset_trim cfg (set_vjoy_proxy (Some vjoy') instance)).
  unfold on_physical_axis, reset_trim. eexists. split.
  - apply update_output_writes with vjoy old; try assumption. reflexivity.
  - cbn [physical_value set_physical_value current_trim_offset set_vjoy_proxy].
    frame_output. rewrite compute_output_clamp. unfold calculate_trimmed_output.
    destruct (enable_scaled_trim cfg).
    + py_unfold. change (Qabs (-1 - 0)) with 1.
      py_cases; unfold clamp; py_cases; lra.
    + unfold clamp; py_cases; lra.
Qed.

(** ** The further properties on concrete inputs *)

Lemma update_output_skips_witness :
  update_output zero_device_cfg (mkInstance 0 0 0.5 (Some {[ (0%Z, 1%Z) := 0.25 ]}))
  = mkInstance 0 0 0.5 (Some {[ (0%Z, 1%Z) := 0.25 ]}).
Proof.
  apply update_output_skips. right. right.
  exists (mkTarget (Some 0%Z) (Some 1%Z)).
  split; [reflexivity | left; right; reflexivity].
Defined.

Lemma handlers_leave_output_in_sync_witness :
  axis_value (handle additive_cfg new_instance (TrimUp true one_axis)) (1%Z, 1%Z)
  = Some (compute_output additive_cfg
            (physical_value (handle additive_cfg new_instance (TrimUp true one_axis)))
            (current_trim_offset
               (handle additive_cfg new_instance (TrimUp true one_axis)))).
Proof.
  apply (handlers_leave_output_in_sync additive_cfg new_instance
           (TrimUp true one_axis) one_axis 1 1 0);
    first [reflexivity | discriminate].
Defined.

Lemma handlers_touch_one_axis_witness :
  axis_value (handle additive_cfg new_instance (PhysicalAxis 0.5 two_axes)) (1%Z, 2%Z)
  = Some 0.25.
Proof.
  apply (handlers_touch_one_axis additive_cfg new_instance
           (PhysicalAxis 0.5 two_axes) (1%Z, 2%Z)).
  intros d i H. injection H as <- <-. discriminate.
Defined.

Lemma trim_depends_on_presses_witness :
  current_trim_value
    (run sensitive_cfg
       [PhysicalAxis 0.5 one_axis; TrimUp true one_axis; TrimUp false one_axis;
        TrimDown true two_axes])
  = current_trim_value (run sensitive_cfg [TrimUp true two_axes; TrimDown true ∅]).
Proof.
  apply (proj1 (trim_depends_on_presses sensitive_cfg
                  [PhysicalAxis 0.5 one_axis; TrimUp true one_axis;
                   TrimUp false one_axis; TrimDown true two_axes]
                  [TrimUp true two_axes; TrimDown true ∅] eq_refl)).
Defined.

Lemma trim_buttons_direction_witness :
  current_trim_value (mkInstance 0.95 0.95 0 None)
    <= current_trim_value
         (on_trim_up sensitive_cfg true one_axis (mkInstance 0.95 0.95 0 None)) <= 1
  /\ current_trim_value
       (on_trim_up sensitive_cfg true one_axis (mkInstance 0.95 0.95 0 None)) = 1.
Proof.
  destruct (trim_buttons_direction sensitive_cfg (mkInstance 0.95 0.95 0 None)
              one_axis ltac:(qconst) ltac:(split; qconst))
    as (Hup & _ & Htop & _).
  split; [exact Hup | apply Htop; qconst].
Defined.

Lemma additive_output_monotone_in_trim_witness :
  compute_output additive_cfg 0.5 (-0.2) <= compute_output additive_cfg 0.5 0.4.
Proof.
  apply (additive_output_monotone_in_trim additive_cfg 0.5 (-0.2) 0.4 eq_refl).
  qconst.
Defined.

Lemma compute_output_monotone_witness :
  compute_output scaled_cfg (-0.5) 0.3 <= compute_output scaled_cfg 0.5 0.3.
Proof. apply (compute_output_monotone scaled_cfg (-0.5) 0.5 0.3). qconst. Defined.

Lemma compute_output_odd_witness :
  compute_output scaled_cfg (- 0.5) (- 0.3) == - compute_output scaled_cfg 0.5 0.3.
Proof.
  apply (compute_output_odd scaled_cfg 0.5 0.3).
  intros H. vm_compute in H. discriminate H.
Defined.

Lemma centred_trim_passes_stick_witness : compute_output scaled_cfg 0.3 0 == 0.3.
Proof. apply (centred_trim_passes_stick scaled_cfg 0.3). split; qconst. Defined.

Lemma centred_stick_gives_trim_witness : compute_output scaled_cfg 0 0.5 == 0.5.
Proof. apply (centred_stick_gives_trim scaled_cfg 0.5); qconst. Defined.

Lemma plugin_init_centres_witness :
  current_trim_value (plugin_init additive_cfg (mkInstance 0.4 0.4 0.7 None)) = 0
  /\ current_trim_value (plugin_init (mkConfig 0.01 1 false false None)
                           (mkInstance 0.4 0.4 0.7 None)) = 0.4.
Proof.
  split.
  - apply (proj2 (proj2 (proj2
             (plugin_init_centres additive_cfg (mkInstance 0.4 0.4 0.7 None))))).
    reflexivity.
  - apply (proj2 (proj2 (proj2 (proj2
             (plugin_init_centres (mkConfig 0.01 1 false false None)
                (mkInstance 0.4 0.4 0.7 None)))))).
    reflexivity.
Defined.

Lemma reset_then_stick_witness :
  exists q : Q,
    axis_value
      (on_physical_axis scaled_cfg 0.3 one_axis
         (on_reset scaled_cfg true one_axis (mkInstance 1 1 0 None)))
      (1%Z, 1%Z)
    = Some q
    /\ q == 0.3.
Proof.
  apply (reset_then_stick scaled_cfg (mkInstance 1 1 0 None) one_axis one_axis
           0.3 1 1 0);
    first [reflexivity | discriminate | split; qconst].
Defined.
